(** * hummingbot-dashboard: the BollinGrid controller and the Backtesting page

  Two source files are embedded here.

  - [controllers/bollingrid.py]: the [BollinGrid] market-making controller,
    a policy object with three decision functions and one position-sizing
    function.  Its methods read the wall clock ([time.time()]) and the
    market readings supplied by the framework base class; both are made
    explicit as a [World] that every method receives.  Operations that
    raise in Python (division by zero, arithmetic on [None], a [None]
    passed for a required field) return [Raises]; the methods live in a
    reader/error monad.

  - [pages/9_Backtesting.py]: a straight-line script.  It is embedded as a
    program in a state monad whose state is the log of the calls the
    script makes, each with the objects it receives and returns.

  Numbers ([Decimal], [float], [int] used as amounts, prices and times) are
  exact rationals [Q]; rounding of [Decimal] and of binary floating point
  is outside this model. *)

From Stdlib Require Import QArith ZArith String List Bool Lqa.
From ExtLib Require Import Structures.Monad Structures.MonadState.
From ExtLib Require Import Data.Monads.StateMonad.
Import ListNotations.
Import MonadNotation.

(* ===================================================================== *)
(** ** Python primitives used by the controller *)
(* ===================================================================== *)

Module Py.

Inductive exn : Type :=
| DivisionByZero      (* decimal.DivisionByZero, a ZeroDivisionError *)
| InvalidOperation    (* decimal.InvalidOperation, raised by 0 / 0 *)
| TypeError
| ValidationError.    (* pydantic: a required field was given None *)

(** The result of evaluating a Python expression or call. *)
Inductive outcome (A : Type) : Type :=
| Returns (a : A)
| Raises (e : exn).
Arguments Returns {A} a.
Arguments Raises {A} e.

(** [bool(x)] for a number: zero is falsy. *)
Definition truthy (x : Q) : bool := negb (Qeq_bool x 0).

(** [bool(x)] for an optional number: [None] and zero are falsy. *)
Definition truthy_opt (x : option Q) : bool :=
  match x with
  | None => false
  | Some q => truthy q
  end.

(** [a > b]. *)
Definition gt (a b : Q) : bool := negb (Qle_bool a b).

(** [a / b] on [Decimal]: a zero divisor raises, [InvalidOperation] when
    the dividend is zero too and [DivisionByZero] otherwise.  The quotient
    is exact here; [Decimal] rounds it to the precision of its context. *)
Definition truediv (a b : Q) : outcome Q :=
  if Qeq_bool b 0 then
    if Qeq_bool a 0 then Raises InvalidOperation else Raises DivisionByZero
  else Returns (a / b).

(** [a + b] where [a] may be [None]: raises [TypeError] on [None]. *)
Definition add_opt (a : option Q) (b : Q) : outcome Q :=
  match a with
  | Some x => Returns (x + b)
  | None => Raises TypeError
  end.

(** [a * b] where [a] may be [None]: raises [TypeError] on [None]. *)
Definition mul_opt (a : option Q) (b : Q) : outcome Q :=
  match a with
  | Some x => Returns (x * b)
  | None => Raises TypeError
  end.

(** [Decimal(x)]: exact in this model. *)
Definition Decimal (x : Q) : Q := x.

End Py.

Import Py.

(* ===================================================================== *)
(** ** Framework data types the controller reads and builds *)
(* ===================================================================== *)

(** [hummingbot.core.data_type.common.TradeType].  The controller only
  compares a side with [BUY] and with [SELL]; every other member takes the
  [else] branch of both comparisons. *)
Inductive TradeType : Type := BUY | SELL | RANGE.

Definition TradeType_eqb (a b : TradeType) : bool :=
match a, b with
| BUY, BUY | SELL, SELL | RANGE, RANGE => true
| _, _ => false
end.

Inductive OrderType : Type := MARKET | LIMIT | LIMIT_MAKER.

Module TrailingStop.
(** Both fields are required [Decimal]s. *)
Record t : Type := Build
  { activation_price_delta : Q;
    trailing_delta : Q }.

(** [TrailingStop(activation_price_delta=..., trailing_delta=...)]:
    pydantic validates the two fields and raises when one is [None]. *)
Definition init (activation_price_delta trailing_delta : option Q) : outcome t :=
  match activation_price_delta, trailing_delta with
  | Some a, Some d =>
      Returns {| activation_price_delta := a; trailing_delta := d |}
  | _, _ => Raises ValidationError
  end.
End TrailingStop.

Module TripleBarrierConf.
(** Every barrier is optional: each of these fields may be [None]. *)
Record t : Type := Build
  { stop_loss : option Q;
    take_profit : option Q;
    time_limit : option Z;
    trailing_stop_activation_price_delta : option Q;
    trailing_stop_trailing_delta : option Q;
    open_order_type : OrderType;
    take_profit_order_type : OrderType }.
End TripleBarrierConf.

Module OrderLevel.
Record t : Type := Build
  { level : Z;
    side : TradeType;
    order_amount_usd : Q;
    spread_factor : Q;
    order_refresh_time : Q;
    cooldown_time : Q;
    triple_barrier_conf : TripleBarrierConf.t }.
End OrderLevel.

Module PositionConfig.
Record t : Type := Build
  { timestamp : Q;
    trading_pair : string;
    exchange : string;
    side : TradeType;
    amount : Q;
    take_profit : Q;
    stop_loss : option Q;
    time_limit : option Z;
    entry_price : Q;
    open_order_type : OrderType;
    take_profit_order_type : OrderType;
    trailing_stop : option TrailingStop.t;
    leverage : Z }.
End PositionConfig.

Module PositionExecutor.
(** [close_timestamp] is [None] until the executor has closed. *)
Record t : Type := Build
  { position_config : PositionConfig.t;
    close_timestamp : option Q }.
End PositionExecutor.

Module BollinGridConfig.
(** The five fields declared by [BollinGridConfig] and the three inherited
    ones that [get_position_config] reads. *)
Record t : Type := Build
  { strategy_name : string;
    bb_length : Z;
    bb_long_threshold : Q;
    bb_short_threshold : Q;
    natr_length : Z;
    exchange : string;
    trading_pair : string;
    leverage : Z }.

Definition default (exchange trading_pair : string) (leverage : Z) : t :=
  {| strategy_name := "bollinger_grid";
     bb_length := 12;
     bb_long_threshold := 0.7;
     bb_short_threshold := 0.3;
     natr_length := 14;
     exchange := exchange;
     trading_pair := trading_pair;
     leverage := leverage |}.
End BollinGridConfig.

(* ===================================================================== *)
(** ** The world a controller method runs in *)
(* ===================================================================== *)

(** Everything a method reads besides its arguments and [self.config]:
  the wall clock and the two readings provided by the base class
  ([get_close_price] and [get_price_and_spread_multiplier], whose bodies
  are framework code). *)
Record World : Type := mkWorld
{ clock : Q;
  close_prices : string -> string -> Q;
  price_and_spread_multiplier : Q * Q * Z }.

(** Reader over the world, with Python exceptions. *)
Definition M (A : Type) : Type := World -> outcome A.

#[global] Instance Monad_M : Monad M :=
{| ret := fun _ a _ => Returns a;
   bind := fun _ _ c k w =>
     match c w with
     | Returns a => k a w
     | Raises e => Raises e
     end |}.

Definition lift {A : Type} (o : outcome A) : M A := fun _ => o.

(** [time.time()]. *)
Definition time_time : M Q := fun w => Returns (clock w).

(* ===================================================================== *)
(** ** [class BollinGrid(MarketMakingControllerBase)] *)
(* ===================================================================== *)

Module BollinGrid.

Local Open Scope monad_scope.
Local Open Scope Q_scope.

Record t : Type := Build { config : BollinGridConfig.t }.

(** [__init__]. *)
Definition init (config : BollinGridConfig.t) : t := {| config := config |}.

(** Base-class readings. *)
Definition get_close_price (self : t) (exchange trading_pair : string) : M Q :=
  fun w => Returns (close_prices w exchange trading_pair).

Definition get_price_and_spread_multiplier (self : t) : M (Q * Q * Z) :=
  fun w => Returns (price_and_spread_multiplier w).

Definition refresh_order_condition
    (self : t) (executor : PositionExecutor.t) (order_level : OrderLevel.t)
  : M bool :=
  now <- time_time ;;
  if gt (PositionConfig.timestamp (PositionExecutor.position_config executor)
         + OrderLevel.order_refresh_time order_level) now
  then ret false
  else ret true.

Definition early_stop_condition
    (self : t) (executor : PositionExecutor.t) (order_level : OrderLevel.t)
  : M bool :=
  ret false.

(** [a and b] evaluates [b] only when [a] is truthy, so the sum is formed
    only for a close timestamp that is not [None]. *)
Definition cooldown_condition
    (self : t) (executor : PositionExecutor.t) (order_level : OrderLevel.t)
  : M bool :=
  if truthy_opt (PositionExecutor.close_timestamp executor) then
    deadline <- lift (add_opt (PositionExecutor.close_timestamp executor)
                              (OrderLevel.cooldown_time order_level)) ;;
    now <- time_time ;;
    if gt deadline now then ret true else ret false
  else ret false.

(** [1 if order_level.side == TradeType.BUY else -1]. *)
Definition current_side (order_level : OrderLevel.t) : Z :=
  if TradeType_eqb (OrderLevel.side order_level) BUY then 1%Z else (-1)%Z.

(** The rebinding of [spread_multiplier] on line 87. *)
Definition signed_multiplier (order_level : OrderLevel.t) (spread_multiplier : Q) : Q :=
  if TradeType_eqb (OrderLevel.side order_level) SELL
  then spread_multiplier
  else - spread_multiplier.

(** The expression bound to [order_price] on line 88. *)
Definition order_price_of
    (close_price : Q) (order_level : OrderLevel.t) (spread_multiplier : Q) : Q :=
  close_price * (1 + OrderLevel.spread_factor order_level * spread_multiplier).

Definition get_position_config (self : t) (order_level : OrderLevel.t)
  : M (option PositionConfig.t) :=
  close_price <- get_close_price self
                   (BollinGridConfig.exchange (config self))
                   (BollinGridConfig.trading_pair (config self)) ;;
  '(bbp, spread_multiplier, active_side) <- get_price_and_spread_multiplier self ;;
  let current_side := current_side order_level in
  if (active_side =? current_side)%Z then
    let spread_multiplier := signed_multiplier order_level spread_multiplier in
    let order_price := order_price_of close_price order_level spread_multiplier in
    amount <- lift (truediv (OrderLevel.order_amount_usd order_level) order_price) ;;
    let tbc := OrderLevel.triple_barrier_conf order_level in
    trailing_stop <-
      (if truthy_opt (TripleBarrierConf.trailing_stop_trailing_delta tbc)
          && truthy_opt (TripleBarrierConf.trailing_stop_trailing_delta tbc)
       then
         ts <- lift (TrailingStop.init
                       (TripleBarrierConf.trailing_stop_activation_price_delta tbc)
                       (TripleBarrierConf.trailing_stop_trailing_delta tbc)) ;;
         ret (Some ts)
       else ret None) ;;
    now <- time_time ;;
    take_profit <- lift (mul_opt (TripleBarrierConf.take_profit tbc)
                                 (Decimal spread_multiplier)) ;;
    ret (Some
      {| PositionConfig.timestamp := now;
         PositionConfig.trading_pair := BollinGridConfig.trading_pair (config self);
         PositionConfig.exchange := BollinGridConfig.exchange (config self);
         PositionConfig.side := OrderLevel.side order_level;
         PositionConfig.amount := amount;
         PositionConfig.take_profit := take_profit;
         PositionConfig.stop_loss := TripleBarrierConf.stop_loss tbc;
         PositionConfig.time_limit := TripleBarrierConf.time_limit tbc;
         PositionConfig.entry_price := Decimal order_price;
         PositionConfig.open_order_type := TripleBarrierConf.open_order_type tbc;
         PositionConfig.take_profit_order_type :=
           TripleBarrierConf.take_profit_order_type tbc;
         PositionConfig.trailing_stop := trailing_stop;
         PositionConfig.leverage := BollinGridConfig.leverage (config self) |})
  else ret None.

(** What the world says the three readings are. *)
Definition close_price_in (self : t) (w : World) : Q :=
  close_prices w (BollinGridConfig.exchange (config self))
                 (BollinGridConfig.trading_pair (config self)).

Definition spread_multiplier_in (w : World) : Q :=
  snd (fst (price_and_spread_multiplier w)).

Definition active_side_in (w : World) : Z :=
  snd (price_and_spread_multiplier w).

(** The order price [get_position_config] computes in world [w]. *)
Definition order_price_in (self : t) (w : World) (order_level : OrderLevel.t) : Q :=
  order_price_of (close_price_in self w) order_level
    (signed_multiplier order_level (spread_multiplier_in w)).

End BollinGrid.

(* ===================================================================== *)
(** ** [pages/9_Backtesting.py] *)
(* ===================================================================== *)

Module Page.

Local Open Scope monad_scope.
Local Open Scope string_scope.

(** A Python object the script holds, named by the order of its creation. *)
Definition obj : Type := nat.

(** Keyword arguments of [run_backtesting]; the commented-out [start] and
    [end] are not passed. *)
Record run_kwargs : Type := mk_run_kwargs
  { order_amount : Z;
    leverage : Z;
    initial_portfolio : Z;
    take_profit_multiplier : Q;
    stop_loss_multiplier : Q;
    time_limit : Z;
    std_span : option Z }.

(** Every call the script makes, with its arguments. *)
Inductive call : Type :=
| st_set_page_config (page_title page_icon layout initial_sidebar_state : string)
| st_title (body : string)
| get_dataframe (exchange trading_pair interval : string)
| StatArb (trading_pair : string) (periods : Z) (deviation_threshold : Q)
| Backtesting (strategy : obj)
| run_backtesting (self : obj) (kw : run_kwargs)
| BacktestingAnalysis (positions candles_df : obj)
| create_base_figure (self : obj) (volume positions : bool) (extra_rows : Z)
| add_trade_pnl (self : obj) (row : Z)
| st_columns (spec : list Q)
| enter (container : obj)
| exit (container : obj)
| text_report (self : obj)
| st_text (body : obj)
| figure (self : obj)
| st_plotly_chart (figure_or_data : obj) (use_container_width : bool).

(** A call together with the objects it returned. *)
Record event : Type := mk_event
  { ev_call : call;
    ev_results : list obj }.

Record log : Type := mk_log
  { next : obj;
    trace : list event }.

Definition empty : log := {| next := O; trace := [] |}.

Definition Script : Type -> Type := state log.

(** Perform call [c], which returns [n] new objects. *)
Definition invoke (c : call) (n : nat) : Script (list obj) :=
  l <- get ;;
  let rs := seq (next l) n in
  put {| next := (next l + n)%nat;
         trace := (trace l ++ [ {| ev_call := c; ev_results := rs |} ])%list |} ;;
  ret rs.

Definition invoke0 (c : call) : Script unit :=
  invoke c 0 ;; ret tt.

Definition invoke1 (c : call) : Script obj :=
  rs <- invoke c 1 ;; ret (hd O rs).

Definition invoke2 (c : call) : Script (obj * obj) :=
  rs <- invoke c 2 ;; ret (hd O rs, hd O (tl rs)).

(** [with container: body]. *)
Definition with_ {A : Type} (container : obj) (body : Script A) : Script A :=
  invoke0 (enter container) ;;
  a <- body ;;
  invoke0 (exit container) ;;
  ret a.

(** The module body, statement by statement. *)
Definition main : Script unit :=
  invoke0 (st_set_page_config "Hummingbot Dashboard" "🚀" "wide" "collapsed") ;;
  invoke0 (st_title "⚙️ Backtesting") ;;
  df_to_show <- invoke1 (get_dataframe "binance_perpetual" "ETH-USDT" "1h") ;;
  strategy <- invoke1 (StatArb "ETH-USDT" 24 1.5) ;;
  backtesting <- invoke1 (Backtesting strategy) ;;
  positions <- invoke1 (run_backtesting backtesting
                 {| order_amount := 50;
                    leverage := 20;
                    initial_portfolio := 100;
                    take_profit_multiplier := 3.0;
                    stop_loss_multiplier := 1.5;
                    time_limit := 60 * 60 * 24;
                    std_span := None |}) ;;
  backtesting_analysis <- invoke1 (BacktestingAnalysis positions df_to_show) ;;
  invoke0 (create_base_figure backtesting_analysis false true 1) ;;
  invoke0 (add_trade_pnl backtesting_analysis 2) ;;
  '(c1, c2) <- invoke2 (st_columns [0.2%Q; 0.8%Q]) ;;
  with_ c1 (
    report <- invoke1 (text_report backtesting_analysis) ;;
    invoke0 (st_text report)) ;;
  with_ c2 (
    fig <- invoke1 (figure backtesting_analysis) ;;
    invoke0 (st_plotly_chart fig true)).

(** The calls of one run of the page, in order. *)
Definition run : list event := trace (execState main empty).

(** *** Reading a trace *)

(** The kinds of step the specification speaks of. *)
Inductive step : Type :=
| Fetch          (* data_management.get_dataframe *)
| Construct      (* a quants_lab class is instantiated *)
| Method         (* a method of a quants_lab object is called *)
| RenderText     (* st.text *)
| RenderChart.   (* st.plotly_chart *)

(** Page set-up and layout calls of Streamlit are not steps. *)
Definition step_of (c : call) : option step :=
  match c with
  | get_dataframe _ _ _ => Some Fetch
  | StatArb _ _ _ | Backtesting _ | BacktestingAnalysis _ _ => Some Construct
  | run_backtesting _ _ | create_base_figure _ _ _ _ | add_trade_pnl _ _
  | text_report _ | figure _ => Some Method
  | st_text _ => Some RenderText
  | st_plotly_chart _ _ => Some RenderChart
  | st_set_page_config _ _ _ _ | st_title _ | st_columns _
  | enter _ | exit _ => None
  end.

Fixpoint steps (tr : list event) : list step :=
  match tr with
  | [] => []
  | e :: tr' =>
      match step_of (ev_call e) with
      | Some s => s :: steps tr'
      | None => steps tr'
      end
  end.

Definition step_eqb (a b : step) : bool :=
  match a, b with
  | Fetch, Fetch | Construct, Construct | Method, Method
  | RenderText, RenderText | RenderChart, RenderChart => true
  | _, _ => false
  end.

Definition count_step (s : step) (tr : list event) : nat :=
  List.length (List.filter (step_eqb s) (steps tr)).

(** [produces tr c o]: in [tr], call [c] returned exactly the object [o]. *)
Definition produces (tr : list event) (c : call) (o : obj) : Prop :=
  In {| ev_call := c; ev_results := [o] |} tr.

(** [in_order es tr]: the events [es] occur in [tr], in this order. *)
Inductive in_order : list event -> list event -> Prop :=
| in_order_done (tr : list event) : in_order [] tr
| in_order_here (e : event) (es tr : list event) :
    in_order es tr -> in_order (e :: es) (e :: tr)
| in_order_later (e : event) (es tr : list event) :
    in_order es tr -> in_order es (e :: tr).

(** The sequence of steps the specification gives for the page: fetch data,
    construct two framework objects, call one method, render a chart. *)
Definition glue_steps : list step :=
  [Fetch; Construct; Construct; Method; RenderChart].

End Page.

(* ===================================================================== *)
(** ** Sample inputs *)
(* ===================================================================== *)

Module Sample.

Local Open Scope Q_scope.
Local Open Scope string_scope.

Definition self : BollinGrid.t :=
  BollinGrid.init (BollinGridConfig.default "binance_perpetual" "ETH-USDT" 20).

(** The same controller class configured for another market. *)
Definition other_self : BollinGrid.t :=
  BollinGrid.init (BollinGridConfig.default "kucoin" "BTC-USDT" 5).

Definition barriers : TripleBarrierConf.t :=
  {| TripleBarrierConf.stop_loss := Some 0.03;
     TripleBarrierConf.take_profit := Some 0.02;
     TripleBarrierConf.time_limit := Some 3600%Z;
     TripleBarrierConf.trailing_stop_activation_price_delta := Some 0.01;
     TripleBarrierConf.trailing_stop_trailing_delta := Some 0.005;
     TripleBarrierConf.open_order_type := LIMIT;
     TripleBarrierConf.take_profit_order_type := MARKET |}.

Definition level_of (side : TradeType) : OrderLevel.t :=
  {| OrderLevel.level := 1;
     OrderLevel.side := side;
     OrderLevel.order_amount_usd := 100;
     OrderLevel.spread_factor := 2;
     OrderLevel.order_refresh_time := 60;
     OrderLevel.cooldown_time := 15;
     OrderLevel.triple_barrier_conf := barriers |}.

Definition buy_level : OrderLevel.t := level_of BUY.
Definition sell_level : OrderLevel.t := level_of SELL.
Definition range_level : OrderLevel.t := level_of RANGE.

(** The buy level with the given barriers. *)
Definition buy_level_with (tbc : TripleBarrierConf.t) : OrderLevel.t :=
  {| OrderLevel.level := 1;
     OrderLevel.side := BUY;
     OrderLevel.order_amount_usd := 100;
     OrderLevel.spread_factor := 2;
     OrderLevel.order_refresh_time := 60;
     OrderLevel.cooldown_time := 15;
     OrderLevel.triple_barrier_conf := tbc |}.

(** A buy level with no take profit configured. *)
Definition no_take_profit_level : OrderLevel.t :=
  buy_level_with
    {| TripleBarrierConf.stop_loss := Some 0.03;
       TripleBarrierConf.take_profit := None;
       TripleBarrierConf.time_limit := Some 3600%Z;
       TripleBarrierConf.trailing_stop_activation_price_delta := Some 0.01;
       TripleBarrierConf.trailing_stop_trailing_delta := Some 0.005;
       TripleBarrierConf.open_order_type := LIMIT;
       TripleBarrierConf.take_profit_order_type := MARKET |}.

(** A buy level with a trailing delta but no activation price delta. *)
Definition no_activation_level : OrderLevel.t :=
  buy_level_with
    {| TripleBarrierConf.stop_loss := Some 0.03;
       TripleBarrierConf.take_profit := Some 0.02;
       TripleBarrierConf.time_limit := Some 3600%Z;
       TripleBarrierConf.trailing_stop_activation_price_delta := None;
       TripleBarrierConf.trailing_stop_trailing_delta := Some 0.005;
       TripleBarrierConf.open_order_type := LIMIT;
       TripleBarrierConf.take_profit_order_type := MARKET |}.

(** ETH at 2000, NATR 1 percent, the filter says long; the clock reads 1000. *)
Definition long_world : World :=
  {| clock := 1000;
     close_prices := fun _ _ => 2000;
     price_and_spread_multiplier := (0.5, 0.01, 1%Z) |}.

(** As [long_world], but the filter says short. *)
Definition short_world : World :=
  {| clock := 1000;
     close_prices := fun _ _ => 2000;
     price_and_spread_multiplier := (0.5, 0.01, (-1)%Z) |}.

(** As [long_world], but NATR is 50 percent: with spread factor 2 the buy
    price is [2000 * (1 - 2 * 0.5)], which is zero. *)
Definition wild_world : World :=
  {| clock := 1000;
     close_prices := fun _ _ => 2000;
     price_and_spread_multiplier := (0.5, 0.5, 1%Z) |}.

(** As [long_world], read 100 seconds later: only the clock differs. *)
Definition later_world : World :=
  {| clock := 1100;
     close_prices := fun _ _ => 2000;
     price_and_spread_multiplier := (0.5, 0.01, 1%Z) |}.

(** [long_world]'s clock with other market readings. *)
Definition same_clock_world : World :=
  {| clock := 1000;
     close_prices := fun _ _ => 2100;
     price_and_spread_multiplier := (0.2, 0.02, 1%Z) |}.

Definition placed : PositionConfig.t :=
  {| PositionConfig.timestamp := 990;
     PositionConfig.trading_pair := "ETH-USDT";
     PositionConfig.exchange := "binance_perpetual";
     PositionConfig.side := BUY;
     PositionConfig.amount := 100 / 1960;
     PositionConfig.take_profit := 0.02;
     PositionConfig.stop_loss := Some 0.03;
     PositionConfig.time_limit := Some 3600%Z;
     PositionConfig.entry_price := 1960;
     PositionConfig.open_order_type := LIMIT;
     PositionConfig.take_profit_order_type := MARKET;
     PositionConfig.trailing_stop := None;
     PositionConfig.leverage := 20 |}.

(** An executor whose order was placed at 990 and is still open. *)
Definition open_executor : PositionExecutor.t :=
  {| PositionExecutor.position_config := placed;
     PositionExecutor.close_timestamp := None |}.

(** An executor that closed at 995. *)
Definition closed_executor : PositionExecutor.t :=
  {| PositionExecutor.position_config := placed;
     PositionExecutor.close_timestamp := Some 995 |}.

End Sample.

(* ===================================================================== *)
(** ** Properties specified for [get_position_config] *)
(* ===================================================================== *)

(** The position the specification describes for a matching order level:
    entered at [close_price * (1 + spread_factor * m)] and sized as
    [order_amount_usd] over that price. *)
Definition sized_position
    (self : BollinGrid.t) (w : World) (order_level : OrderLevel.t)
    (pc : PositionConfig.t) : Prop :=
  let m := if TradeType_eqb (OrderLevel.side order_level) SELL
           then BollinGrid.spread_multiplier_in w
           else (- BollinGrid.spread_multiplier_in w)%Q in
  PositionConfig.entry_price pc
    = (BollinGrid.close_price_in self w
       * (1 + OrderLevel.spread_factor order_level * m))%Q
  /\ PositionConfig.amount pc
     = (OrderLevel.order_amount_usd order_level / PositionConfig.entry_price pc)%Q.

Definition returns_sized_position
    (self : BollinGrid.t) (w : World) (order_level : OrderLevel.t) : Prop :=
  exists pc,
    BollinGrid.get_position_config self order_level w = Returns (Some pc)
    /\ sized_position self w order_level pc.

(** A BUY level answered on the long side, or a SELL level answered on the
    short side. *)
Definition buy_long_or_sell_short (w : World) (order_level : OrderLevel.t) : Prop :=
  (OrderLevel.side order_level = BUY /\ BollinGrid.active_side_in w = 1%Z)
  \/ (OrderLevel.side order_level = SELL
      /\ BollinGrid.active_side_in w = (-1)%Z).

(** [get_position_config] builds a position only for such a level. *)
Definition position_only_for_buy_long_or_sell_short
    (self : BollinGrid.t) (w : World) (order_level : OrderLevel.t) : Prop :=
  forall pc : PositionConfig.t,
    BollinGrid.get_position_config self order_level w = Returns (Some pc) ->
    buy_long_or_sell_short w order_level.

(** None of the four methods raises. *)
Definition no_method_raises
    (self : BollinGrid.t) (executor : PositionExecutor.t)
    (order_level : OrderLevel.t) (w : World) : Prop :=
  (exists b, BollinGrid.refresh_order_condition self executor order_level w
             = Returns b)
  /\ (exists b, BollinGrid.early_stop_condition self executor order_level w
                = Returns b)
  /\ (exists b, BollinGrid.cooldown_condition self executor order_level w
                = Returns b)
  /\ (exists r, BollinGrid.get_position_config self order_level w = Returns r).

(** The barriers the two constructions after the division need: a take
    profit to multiply, and an activation price delta for the trailing stop
    whenever the trailing delta is truthy. *)
Definition barriers_usable (order_level : OrderLevel.t) : Prop :=
  let tbc := OrderLevel.triple_barrier_conf order_level in
  TripleBarrierConf.take_profit tbc <> None
  /\ (truthy_opt (TripleBarrierConf.trailing_stop_trailing_delta tbc) = true ->
      TripleBarrierConf.trailing_stop_activation_price_delta tbc <> None).

(** A decision function reads nothing but its executor and order level. *)
Definition input_determined
    (f : BollinGrid.t -> PositionExecutor.t -> OrderLevel.t -> M bool) : Prop :=
  forall self executor order_level w1 w2,
    f self executor order_level w1 = f self executor order_level w2.

(* ===================================================================== *)
(** ** [BollinGrid.get_processed_data] *)
(* ===================================================================== *)

(** Columns of a pandas frame are lists, one entry per row. *)
Module Series.

(** A float entry; [None] is NaN. *)
Definition float : Type := option Q.

(** [s < c] for a series and a scalar: a boolean mask; NaN compares false. *)
Definition lt (s : list float) (c : Q) : list bool :=
  map (fun x => match x with
                | Some v => Py.gt c v
                | None => false
                end) s.

(** [s > c]. *)
Definition gt (s : list float) (c : Q) : list bool :=
  map (fun x => match x with
                | Some v => Py.gt v c
                | None => false
                end) s.

(** [s / c] for a nonzero constant [c]; NaN stays NaN. *)
Definition div (s : list float) (c : Q) : list float :=
  map (option_map (fun v => (v / c)%Q)) s.

(** [df.loc[mask, col] = v]: the entries of [col] where [mask] holds become
    [v].  A mask taken from a column of the same frame has the frame's
    length; beyond a shorter mask the column is left as it is. *)
Fixpoint loc_set (mask : list bool) (v : Z) (col : list Z) : list Z :=
  match mask, col with
  | m :: mask', x :: col' => (if m then v else x) :: loc_set mask' v col'
  | _, _ => col
  end.

End Series.

Module Candles.

(** One row of [self.candles[0].candles_df] as pandas_ta sees it:
    [ta_natr r n] is the row's value of
    [ta.natr(high, low, close, length=n)], and [BBP r n] its entry in the
    column [BBP_<n>_2.0] that [bbands(length=n, std=2)] appends.  Both are
    computed by pandas_ta. *)
Record row : Type := mk_row
  { ta_natr : Z -> Series.float;
    BBP : Z -> Series.float }.

(** The three columns [get_processed_data] writes. *)
Record t : Type := mk
  { spread_multiplier : list Series.float;
    price_multiplier : list Series.float;
    active_side : list Z }.

Definition get_processed_data (self : BollinGrid.t) (candles_df : list row) : t :=
  let natr :=
    Series.div
      (map (fun r => ta_natr r (BollinGridConfig.natr_length (BollinGrid.config self)))
           candles_df) 100 in
  let bbp :=
    map (fun r => BBP r (BollinGridConfig.bb_length (BollinGrid.config self)))
        candles_df in
  let long_condition :=
    Series.lt bbp (BollinGridConfig.bb_long_threshold (BollinGrid.config self)) in
  let short_condition :=
    Series.gt bbp (BollinGridConfig.bb_short_threshold (BollinGrid.config self)) in
  let active_side := repeat 0%Z (List.length candles_df) in
  let active_side := Series.loc_set long_condition 1%Z active_side in
  let active_side := Series.loc_set short_condition (-1)%Z active_side in
  {| spread_multiplier := natr;
     price_multiplier := bbp;
     active_side := active_side |}.

(** The filter read row by row: the short assignment comes last and wins. *)
Definition side_of (cfg : BollinGridConfig.t) (bbp : Series.float) : Z :=
  match bbp with
  | None => 0%Z
  | Some b =>
      if Py.gt b (BollinGridConfig.bb_short_threshold cfg) then (-1)%Z
      else if Py.gt (BollinGridConfig.bb_long_threshold cfg) b then 1%Z
      else 0%Z
  end.

End Candles.

(* ===================================================================== *)
(** ** Where the page renders *)
(* ===================================================================== *)

Module Layout.

(** The container each call is made in: [with c:] makes [c] the current
    container until the block is left.  Entering and leaving are not
    listed themselves. *)
Fixpoint placed (stack : list Page.obj) (tr : list Page.event)
  : list (Page.call * option Page.obj) :=
  match tr with
  | [] => []
  | e :: tr' =>
      match Page.ev_call e with
      | Page.enter c => placed (c :: stack) tr'
      | Page.exit _ => placed (tl stack) tr'
      | c => (c, hd_error stack) :: placed stack tr'
      end
  end.

(** Whether a call was made inside a container. *)
Definition contained (p : Page.call * option Page.obj) : bool :=
  match snd p with
  | Some _ => true
  | None => false
  end.

End Layout.

(* ===================================================================== *)
(** ** More sample inputs *)
(* ===================================================================== *)

Module SampleFrame.

Local Open Scope Q_scope.

(** Four candles.  The first has no indicator value yet; the second has
    BBP 0.1 over 12 candles and 0.6 over any other length. *)
Definition warming_up : Candles.row :=
  Candles.mk_row (fun _ => None) (fun _ => None).

Definition low_band : Candles.row :=
  Candles.mk_row (fun _ => Some 1.2)
                 (fun n => if (n =? 12)%Z then Some 0.1 else Some 0.6).

Definition mid_band : Candles.row :=
  Candles.mk_row (fun _ => Some 0.9) (fun _ => Some 0.5).

Definition high_band : Candles.row :=
  Candles.mk_row (fun _ => Some 2) (fun _ => Some 0.9).

Definition candles_df : list Candles.row :=
  [ warming_up; low_band; mid_band; high_band ].

(** The sample controller with the long threshold moved from 0.7 to 0.4. *)
Definition narrow_self : BollinGrid.t :=
  BollinGrid.init
    {| BollinGridConfig.strategy_name := "bollinger_grid";
       BollinGridConfig.bb_length := 12;
       BollinGridConfig.bb_long_threshold := 0.4;
       BollinGridConfig.bb_short_threshold := 0.3;
       BollinGridConfig.natr_length := 14;
       BollinGridConfig.exchange := "binance_perpetual";
       BollinGridConfig.trading_pair := "ETH-USDT";
       BollinGridConfig.leverage := 20 |}.

(** A buy level whose spread factor, 250, takes the price below zero at a
    NATR of one percent. *)
Definition far_buy_level : OrderLevel.t :=
  {| OrderLevel.level := 3;
     OrderLevel.side := BUY;
     OrderLevel.order_amount_usd := 100;
     OrderLevel.spread_factor := 250;
     OrderLevel.order_refresh_time := 60;
     OrderLevel.cooldown_time := 15;
     OrderLevel.triple_barrier_conf := Sample.barriers |}.

(** [Sample.long_world] with another price multiplier (BBP) reading. *)
Definition other_bbp_world : World :=
  {| clock := 1000;
     close_prices := fun _ _ => 2000;
     price_and_spread_multiplier := (0.1, 0.01, 1%Z) |}.

End SampleFrame.

(* ===================================================================== *)
(** ** Lemmas on the primitives *)
(* ===================================================================== *)

Lemma gt_true_iff (a b : Q) : gt a b = true <-> (b < a)%Q.
Proof.
  unfold gt. rewrite negb_true_iff.
  split.
  - intros E. apply Qnot_le_lt. intros L.
    apply Qle_bool_iff in L. congruence.
  - intros L. destruct (Qle_bool a b) eqn:E; [|reflexivity].
    apply Qle_bool_iff in E. exfalso. exact (Qlt_not_le _ _ L E).
Qed.

Lemma gt_false_iff (a b : Q) : gt a b = false <-> (a <= b)%Q.
Proof.
  unfold gt. rewrite negb_false_iff. apply Qle_bool_iff.
Qed.

Lemma truthy_true_iff (x : Q) : truthy x = true <-> ~ (x == 0)%Q.
Proof.
  unfold truthy. rewrite negb_true_iff. split.
  - intros E. apply Qeq_bool_neq. exact E.
  - intros N. destruct (Qeq_bool x 0) eqn:E; [|reflexivity].
    apply Qeq_bool_iff in E. contradiction.
Qed.

Lemma truediv_nonzero (a b : Q) :
  ~ (b == 0)%Q -> truediv a b = Returns (a / b)%Q.
Proof.
  intros N. unfold truediv.
  destruct (Qeq_bool b 0) eqn:E; [|reflexivity].
  apply Qeq_bool_iff in E. contradiction.
Qed.

(** [get_position_config], one equation per path. *)
Lemma get_position_config_mismatch self order_level w :
  BollinGrid.active_side_in w <> BollinGrid.current_side order_level ->
  BollinGrid.get_position_config self order_level w = Returns None.
Proof.
  intros N.
  unfold BollinGrid.get_position_config, BollinGrid.active_side_in in *.
  cbn. destruct (price_and_spread_multiplier w) as [[bbp sm] active]. cbn in *.
  destruct (Z.eqb_spec active (BollinGrid.current_side order_level)); [contradiction|].
  reflexivity.
Qed.

Lemma get_position_config_match self order_level w :
  BollinGrid.active_side_in w = BollinGrid.current_side order_level ->
  BollinGrid.get_position_config self order_level w =
  let tbc := OrderLevel.triple_barrier_conf order_level in
  let m := BollinGrid.signed_multiplier order_level (BollinGrid.spread_multiplier_in w) in
  match truediv (OrderLevel.order_amount_usd order_level)
                (BollinGrid.order_price_in self w order_level) with
  | Raises e => Raises e
  | Returns amount =>
      match (if truthy_opt (TripleBarrierConf.trailing_stop_trailing_delta tbc)
             then match TrailingStop.init
                          (TripleBarrierConf.trailing_stop_activation_price_delta tbc)
                          (TripleBarrierConf.trailing_stop_trailing_delta tbc) with
                  | Returns ts => Returns (Some ts)
                  | Raises e => Raises e
                  end
             else Returns None) with
      | Raises e => Raises e
      | Returns trailing_stop =>
          match mul_opt (TripleBarrierConf.take_profit tbc) m with
          | Raises e => Raises e
          | Returns take_profit =>
              Returns (Some
                {| PositionConfig.timestamp := clock w;
                   PositionConfig.trading_pair :=
                     BollinGridConfig.trading_pair (BollinGrid.config self);
                   PositionConfig.exchange :=
                     BollinGridConfig.exchange (BollinGrid.config self);
                   PositionConfig.side := OrderLevel.side order_level;
                   PositionConfig.amount := amount;
                   PositionConfig.take_profit := take_profit;
                   PositionConfig.stop_loss := TripleBarrierConf.stop_loss tbc;
                   PositionConfig.time_limit := TripleBarrierConf.time_limit tbc;
                   PositionConfig.entry_price :=
                     BollinGrid.order_price_in self w order_level;
                   PositionConfig.open_order_type :=
                     TripleBarrierConf.open_order_type tbc;
                   PositionConfig.take_profit_order_type :=
                     TripleBarrierConf.take_profit_order_type tbc;
                   PositionConfig.trailing_stop := trailing_stop;
                   PositionConfig.leverage :=
                     BollinGridConfig.leverage (BollinGrid.config self) |})
          end
      end
  end.
Proof.
  intros E.
  unfold BollinGrid.get_position_config, BollinGrid.order_price_in,
    BollinGrid.close_price_in, BollinGrid.spread_multiplier_in,
    BollinGrid.active_side_in in *.
  cbn. destruct (price_and_spread_multiplier w) as [[bbp sm] active]. cbn in *.
  rewrite E, Z.eqb_refl. unfold lift, Decimal.
  destruct (truediv _ _); [|reflexivity].
  cbn.
  destruct (truthy_opt _); cbn.
  - destruct (TrailingStop.init _ _); cbn; [|reflexivity].
    destruct (mul_opt _ _); reflexivity.
  - destruct (mul_opt _ _); reflexivity.
Qed.

(** What a returned [PositionConfig] says about the call that built it. *)
Lemma get_position_config_returned self order_level w pc :
  BollinGrid.get_position_config self order_level w = Returns (Some pc) ->
  BollinGrid.active_side_in w = BollinGrid.current_side order_level
  /\ ~ (BollinGrid.order_price_in self w order_level == 0)%Q
  /\ PositionConfig.entry_price pc = BollinGrid.order_price_in self w order_level
  /\ PositionConfig.amount pc
     = (OrderLevel.order_amount_usd order_level
        / BollinGrid.order_price_in self w order_level)%Q
  /\ (exists tp : Q,
        TripleBarrierConf.take_profit (OrderLevel.triple_barrier_conf order_level)
          = Some tp
        /\ PositionConfig.take_profit pc
           = (tp * BollinGrid.signed_multiplier order_level
                     (BollinGrid.spread_multiplier_in w))%Q)
  /\ PositionConfig.timestamp pc = clock w.
Proof.
  intros R.
  destruct (Z.eq_dec (BollinGrid.active_side_in w)
                     (BollinGrid.current_side order_level)) as [E | N].
  - rewrite (get_position_config_match self order_level w E) in R.
    cbv zeta in R. unfold truediv in R.
    destruct (Qeq_bool (BollinGrid.order_price_in self w order_level) 0) eqn:P.
    { destruct (Qeq_bool (OrderLevel.order_amount_usd order_level) 0);
        discriminate. }
    apply Qeq_bool_neq in P.
    destruct (if truthy_opt _ then _ else _) as [trailing_stop | e];
      [|discriminate].
    destruct (TripleBarrierConf.take_profit _) as [tp |] eqn:T;
      [|discriminate].
    cbn in R. injection R as <-. cbn.
    repeat split; try reflexivity; try assumption.
    exists tp. split; reflexivity.
  - rewrite (get_position_config_mismatch self order_level w N) in R.
    discriminate.
Qed.

(** When the side matches, the price is not zero and the barriers are
    usable, a [PositionConfig] is returned. *)
Lemma get_position_config_returns self order_level w :
  BollinGrid.active_side_in w = BollinGrid.current_side order_level ->
  ~ (BollinGrid.order_price_in self w order_level == 0)%Q ->
  barriers_usable order_level ->
  exists pc : PositionConfig.t,
    BollinGrid.get_position_config self order_level w = Returns (Some pc).
Proof.
  intros E P [T A].
  rewrite (get_position_config_match self order_level w E). cbv zeta.
  rewrite (truediv_nonzero _ _ P).
  destruct (TripleBarrierConf.take_profit _) as [tp |]; [|contradiction].
  cbn.
  destruct (TripleBarrierConf.trailing_stop_trailing_delta _) as [d |] eqn:D;
    cbn in *.
  - destruct (truthy d) eqn:Td.
    + specialize (A eq_refl).
      destruct (TripleBarrierConf.trailing_stop_activation_price_delta _) as [a |];
        [|contradiction].
      cbn. eexists. reflexivity.
    + eexists. reflexivity.
  - eexists. reflexivity.
Qed.

(* ===================================================================== *)
(** ** The decision functions *)
(* ===================================================================== *)

(** C2. [refresh_order_condition] returns [False] while the position
    config's timestamp plus the level's refresh time is strictly greater
    than the current time, and [True] otherwise. *)
Theorem refresh_order_condition_elapsed
    (self : BollinGrid.t) (executor : PositionExecutor.t)
    (order_level : OrderLevel.t) (w : World) :
  BollinGrid.refresh_order_condition self executor order_level w =
  Returns
    (if Qlt_le_dec (clock w)
          (PositionConfig.timestamp (PositionExecutor.position_config executor)
           + OrderLevel.order_refresh_time order_level)
     then false else true).
Proof.
  unfold BollinGrid.refresh_order_condition, time_time. cbn.
  destruct (Qlt_le_dec _ _) as [L | L].
  - apply gt_true_iff in L. rewrite L. reflexivity.
  - apply gt_false_iff in L. rewrite L. reflexivity.
Qed.

(** C6. [early_stop_condition] returns [False] for every executor and every
    order level, in every world. *)
Theorem early_stop_condition_never
    (self : BollinGrid.t) (executor : PositionExecutor.t)
    (order_level : OrderLevel.t) (w : World) :
  BollinGrid.early_stop_condition self executor order_level w = Returns false.
Proof. reflexivity. Qed.

(** C3. [cooldown_condition] returns [True] exactly when the executor has a
    truthy close timestamp (not [None], not zero) and that timestamp plus
    the level's cooldown time is strictly greater than the current time; in
    every other case it returns [False]. *)
Theorem cooldown_condition_exact
    (self : BollinGrid.t) (executor : PositionExecutor.t)
    (order_level : OrderLevel.t) (w : World) :
  (BollinGrid.cooldown_condition self executor order_level w = Returns true
   <-> exists t : Q,
         PositionExecutor.close_timestamp executor = Some t
         /\ ~ (t == 0)%Q
         /\ (clock w < t + OrderLevel.cooldown_time order_level)%Q)
  /\ (BollinGrid.cooldown_condition self executor order_level w = Returns true
      \/ BollinGrid.cooldown_condition self executor order_level w = Returns false).
Proof.
  unfold BollinGrid.cooldown_condition, time_time, lift.
  destruct (PositionExecutor.close_timestamp executor) as [t |]; cbn.
  - destruct (truthy t) eqn:T; cbn.
    + apply truthy_true_iff in T.
      destruct (gt (t + OrderLevel.cooldown_time order_level) (clock w)) eqn:G.
      * split; [|now left]. split; [|reflexivity].
        intros _. exists t. apply gt_true_iff in G. now repeat split.
      * split; [|now right]. split; [discriminate|].
        intros (t' & E & _ & L). injection E as <-.
        apply gt_true_iff in L. congruence.
    + split; [|now right]. split; [discriminate|].
      intros (t' & E & N & _). injection E as <-.
      apply truthy_true_iff in N. congruence.
  - split; [|now right]. split; [discriminate|].
    intros (t' & E & _). discriminate.
Qed.

(** C7, as the code has it.  The results of the refresh, stop and cooldown
    functions are determined by the executor, the order level and the clock
    reading at the call: two calls with equal inputs and equal clock
    readings give equal results, whatever the controller's configuration
    and the market readings are. *)
Theorem decisions_determined_by_inputs_and_clock
    (self1 self2 : BollinGrid.t) (executor : PositionExecutor.t)
    (order_level : OrderLevel.t) (w1 w2 : World) :
  clock w1 = clock w2 ->
  BollinGrid.refresh_order_condition self1 executor order_level w1
    = BollinGrid.refresh_order_condition self2 executor order_level w2
  /\ BollinGrid.early_stop_condition self1 executor order_level w1
     = BollinGrid.early_stop_condition self2 executor order_level w2
  /\ BollinGrid.cooldown_condition self1 executor order_level w1
     = BollinGrid.cooldown_condition self2 executor order_level w2.
Proof.
  intros E.
  unfold BollinGrid.refresh_order_condition, BollinGrid.early_stop_condition,
    BollinGrid.cooldown_condition, time_time, lift.
  cbn. rewrite E. repeat split.
  - destruct (gt _ _); reflexivity.
  - destruct (PositionExecutor.close_timestamp executor) as [t |]; cbn;
      [|reflexivity].
    destruct (truthy t); cbn; [rewrite E|reflexivity].
    destruct (gt _ _); reflexivity.
Qed.

(** Two worlds that differ in every market reading and in the controller,
    but not in the clock. *)
Lemma decisions_determined_by_inputs_and_clock_witness :
  clock Sample.long_world = clock Sample.same_clock_world
  /\ BollinGrid.refresh_order_condition Sample.self Sample.open_executor
       Sample.buy_level Sample.long_world
     = BollinGrid.refresh_order_condition Sample.other_self Sample.open_executor
         Sample.buy_level Sample.same_clock_world.
Proof.
  split; [reflexivity|].
  apply (decisions_determined_by_inputs_and_clock
           Sample.self Sample.other_self Sample.open_executor Sample.buy_level
           Sample.long_world Sample.same_clock_world).
  reflexivity.
Defined.

(** C7, as stated, fails: in two worlds that differ in the clock alone
    (1000 and 1100) the same executor and order level are answered
    differently, by the refresh function
    (order placed at 990, refresh time 60) and by the cooldown function
    (closed at 995, cooldown time 15). *)
Lemma decisions_depend_on_clock :
  ~ input_determined BollinGrid.refresh_order_condition
  /\ ~ input_determined BollinGrid.cooldown_condition
  /\ BollinGrid.refresh_order_condition Sample.self Sample.open_executor
       Sample.buy_level Sample.long_world = Returns false
  /\ BollinGrid.refresh_order_condition Sample.self Sample.open_executor
       Sample.buy_level Sample.later_world = Returns true
  /\ BollinGrid.cooldown_condition Sample.self Sample.closed_executor
       Sample.buy_level Sample.long_world = Returns true
  /\ BollinGrid.cooldown_condition Sample.self Sample.closed_executor
       Sample.buy_level Sample.later_world = Returns false.
Proof.
  split; [|split].
  - intros D.
    specialize (D Sample.self Sample.open_executor Sample.buy_level
                  Sample.long_world Sample.later_world).
    vm_compute in D. discriminate.
  - intros D.
    specialize (D Sample.self Sample.closed_executor Sample.buy_level
                  Sample.long_world Sample.later_world).
    vm_compute in D. discriminate.
  - repeat split; vm_compute; reflexivity.
Qed.

(* ===================================================================== *)
(** ** [get_position_config] *)
(* ===================================================================== *)

(** C1, as the code has it.  For every order level whose side matches the
    computed active side, whose computed order price is not zero, whose
    take profit is set and whose trailing-stop activation price delta is
    set whenever its trailing delta is truthy, [get_position_config]
    returns a [PositionConfig] whose entry price is
    [close_price * (1 + spread_factor * m)], with [m] the spread multiplier
    for a SELL level and its negation for a BUY level, and whose amount is
    [order_amount_usd] divided by that entry price. *)
Theorem get_position_config_sizes_position
    (self : BollinGrid.t) (order_level : OrderLevel.t) (w : World) :
  BollinGrid.active_side_in w = BollinGrid.current_side order_level ->
  ~ (BollinGrid.order_price_in self w order_level == 0)%Q ->
  barriers_usable order_level ->
  returns_sized_position self w order_level.
Proof.
  intros Hside Hprice Hbar.
  destruct (get_position_config_returns self order_level w Hside Hprice Hbar)
    as [pc R].
  exists pc. split; [exact R|].
  destruct (get_position_config_returned _ _ _ _ R) as (_ & _ & He & Ha & _).
  unfold sized_position. cbv zeta. rewrite Ha, He.
  split; reflexivity.
Qed.

(** A buy level in a long market: entered at 1960, sized 100 / 1960. *)
Lemma get_position_config_sizes_position_witness :
  returns_sized_position Sample.self Sample.long_world Sample.buy_level.
Proof.
  apply (get_position_config_sizes_position
           Sample.self Sample.buy_level Sample.long_world).
  - reflexivity.
  - vm_compute. discriminate.
  - split.
    + discriminate.
    + intros _. discriminate.
Defined.

(** C1, as stated, fails on three matching buy levels.  With an order
    price of zero the division on line 89 raises.  With a price of 1960:
    a level without take profit fails in the product on line 103, and a
    level with a trailing delta and no activation price delta fails in the
    [TrailingStop] on line 91.  No [PositionConfig] is returned. *)
Lemma get_position_config_raises_on_matching_level :
  (BollinGrid.active_side_in Sample.wild_world
     = BollinGrid.current_side Sample.buy_level
   /\ BollinGrid.get_position_config Sample.self Sample.buy_level Sample.wild_world
      = Raises DivisionByZero
   /\ ~ returns_sized_position Sample.self Sample.wild_world Sample.buy_level)
  /\ (BollinGrid.active_side_in Sample.long_world
        = BollinGrid.current_side Sample.no_take_profit_level
      /\ ~ (BollinGrid.order_price_in Sample.self Sample.long_world
              Sample.no_take_profit_level == 0)%Q
      /\ BollinGrid.get_position_config Sample.self Sample.no_take_profit_level
           Sample.long_world = Raises TypeError
      /\ ~ returns_sized_position Sample.self Sample.long_world
             Sample.no_take_profit_level)
  /\ (BollinGrid.active_side_in Sample.long_world
        = BollinGrid.current_side Sample.no_activation_level
      /\ ~ (BollinGrid.order_price_in Sample.self Sample.long_world
              Sample.no_activation_level == 0)%Q
      /\ BollinGrid.get_position_config Sample.self Sample.no_activation_level
           Sample.long_world = Raises ValidationError
      /\ ~ returns_sized_position Sample.self Sample.long_world
             Sample.no_activation_level).
Proof.
  assert (R1 : BollinGrid.get_position_config Sample.self Sample.buy_level
                 Sample.wild_world = Raises DivisionByZero)
    by (vm_compute; reflexivity).
  assert (R2 : BollinGrid.get_position_config Sample.self
                 Sample.no_take_profit_level Sample.long_world = Raises TypeError)
    by (vm_compute; reflexivity).
  assert (R3 : BollinGrid.get_position_config Sample.self
                 Sample.no_activation_level Sample.long_world
               = Raises ValidationError)
    by (vm_compute; reflexivity).
  split; [|split].
  - split; [reflexivity|]. split; [exact R1|].
    intros (pc & E & _). rewrite R1 in E. discriminate.
  - split; [reflexivity|]. split; [vm_compute; discriminate|].
    split; [exact R2|].
    intros (pc & E & _). rewrite R2 in E. discriminate.
  - split; [reflexivity|]. split; [vm_compute; discriminate|].
    split; [exact R3|].
    intros (pc & E & _). rewrite R3 in E. discriminate.
Qed.

(** C4, as the code has it.  [get_position_config] returns a
    [PositionConfig] only when the active side is [+1] for a BUY level or
    [-1] for a level of any other side: SELL, and also RANGE, which the
    [else] of line 85 counts as [-1].  Whenever the active side differs from
    that value it returns [None]; no [PositionConfig] is built. *)
Theorem get_position_config_only_on_active_side
    (self : BollinGrid.t) (order_level : OrderLevel.t) (w : World) :
  (forall pc : PositionConfig.t,
      BollinGrid.get_position_config self order_level w = Returns (Some pc) ->
      (OrderLevel.side order_level = BUY /\ BollinGrid.active_side_in w = 1%Z)
      \/ (OrderLevel.side order_level <> BUY
          /\ BollinGrid.active_side_in w = (-1)%Z))
  /\ ((OrderLevel.side order_level = BUY /\ BollinGrid.active_side_in w <> 1%Z)
      \/ (OrderLevel.side order_level <> BUY
          /\ BollinGrid.active_side_in w <> (-1)%Z) ->
      BollinGrid.get_position_config self order_level w = Returns None).
Proof.
  split.
  - intros pc R.
    destruct (get_position_config_returned _ _ _ _ R) as (A & _).
    rewrite A. unfold BollinGrid.current_side.
    destruct (OrderLevel.side order_level); cbn.
    + left. split; reflexivity.
    + right. split; [discriminate | reflexivity].
    + right. split; [discriminate | reflexivity].
  - intros H. apply get_position_config_mismatch.
    unfold BollinGrid.current_side.
    destruct H as [[B N] | [B N]].
    + rewrite B. exact N.
    + destruct (OrderLevel.side order_level); cbn;
        [exfalso; apply B; reflexivity | exact N | exact N].
Qed.

(** A sell level in a long market gets [None]. *)
Lemma get_position_config_only_on_active_side_witness :
  BollinGrid.get_position_config Sample.self Sample.sell_level Sample.long_world
    = Returns None.
Proof.
  apply (get_position_config_only_on_active_side
           Sample.self Sample.sell_level Sample.long_world).
  right. split.
  - discriminate.
  - vm_compute. discriminate.
Defined.

(** C4, as stated, fails: a RANGE level in a short market gets a
    [PositionConfig], and it is neither a BUY level answered long nor a
    SELL level answered short. *)
Lemma range_level_gets_position :
  (exists pc : PositionConfig.t,
      BollinGrid.get_position_config Sample.self Sample.range_level
        Sample.short_world = Returns (Some pc))
  /\ ~ buy_long_or_sell_short Sample.short_world Sample.range_level
  /\ ~ position_only_for_buy_long_or_sell_short
         Sample.self Sample.short_world Sample.range_level.
Proof.
  assert (N : ~ buy_long_or_sell_short Sample.short_world Sample.range_level).
  { intros [[B _] | [S _]]; discriminate. }
  split; [eexists; vm_compute; reflexivity|].
  split; [exact N|].
  intros H. apply N. eapply H. vm_compute. reflexivity.
Qed.

(** C5. For a BUY level with a nonnegative spread multiplier and a
    nonnegative configured take profit, the [PositionConfig] returned, when
    one is returned, has a take profit that is at most zero. *)
Theorem buy_take_profit_nonpositive
    (self : BollinGrid.t) (order_level : OrderLevel.t) (w : World)
    (pc : PositionConfig.t) :
  OrderLevel.side order_level = BUY ->
  (0 <= BollinGrid.spread_multiplier_in w)%Q ->
  (forall take_profit : Q,
      TripleBarrierConf.take_profit (OrderLevel.triple_barrier_conf order_level)
        = Some take_profit ->
      (0 <= take_profit)%Q) ->
  BollinGrid.get_position_config self order_level w = Returns (Some pc) ->
  (PositionConfig.take_profit pc <= 0)%Q.
Proof.
  intros Hbuy Hsm Hconf R.
  destruct (get_position_config_returned _ _ _ _ R)
    as (_ & _ & _ & _ & (tp & T & ->) & _).
  pose proof (Hconf tp T) as Htp.
  unfold BollinGrid.signed_multiplier. rewrite Hbuy. cbn.
  set (sm := BollinGrid.spread_multiplier_in w) in *.
  assert (P : (0 <= tp * sm)%Q)
    by (apply Qmult_le_0_compat; assumption).
  assert (Q0 : (tp * - sm == - (tp * sm))%Q) by ring.
  rewrite Q0. lra.
Qed.

(** The buy level in a long market: take profit [0.02 * -0.01]. *)
Lemma buy_take_profit_nonpositive_witness :
  exists pc : PositionConfig.t,
    BollinGrid.get_position_config Sample.self Sample.buy_level Sample.long_world
      = Returns (Some pc)
    /\ (PositionConfig.take_profit pc <= 0)%Q.
Proof.
  eexists. split.
  - vm_compute. reflexivity.
  - eapply (buy_take_profit_nonpositive
              Sample.self Sample.buy_level Sample.long_world).
    + reflexivity.
    + vm_compute. discriminate.
    + intros tp H. injection H as <-. vm_compute. discriminate.
    + vm_compute. reflexivity.
Defined.

(** C10, as the code has it.  When the computed order price is not zero,
    the level's take profit is set and its trailing-stop activation price
    delta is set whenever its trailing delta is truthy, none of
    [refresh_order_condition], [early_stop_condition], [cooldown_condition]
    and [get_position_config] raises: each returns a value.  In particular
    the division [order_amount_usd / order_price] is defined. *)
Theorem controller_total
    (self : BollinGrid.t) (executor : PositionExecutor.t)
    (order_level : OrderLevel.t) (w : World) :
  ~ (BollinGrid.order_price_in self w order_level == 0)%Q ->
  barriers_usable order_level ->
  no_method_raises self executor order_level w
  /\ truediv (OrderLevel.order_amount_usd order_level)
             (BollinGrid.order_price_in self w order_level)
     = Returns (OrderLevel.order_amount_usd order_level
                / BollinGrid.order_price_in self w order_level)%Q.
Proof.
  intros Hprice Hbar. unfold no_method_raises. repeat split.
  - unfold BollinGrid.refresh_order_condition, time_time. cbn.
    destruct (gt _ _); eexists; reflexivity.
  - exists false. reflexivity.
  - unfold BollinGrid.cooldown_condition, time_time, lift.
    destruct (PositionExecutor.close_timestamp executor) as [t |]; cbn;
      [|eexists; reflexivity].
    destruct (truthy t); cbn; [|eexists; reflexivity].
    destruct (gt _ _); eexists; reflexivity.
  - destruct (Z.eq_dec (BollinGrid.active_side_in w)
                       (BollinGrid.current_side order_level)) as [E | N].
    + destruct (get_position_config_returns self order_level w E Hprice Hbar)
        as [pc R].
      exists (Some pc). exact R.
    + rewrite (get_position_config_mismatch self order_level w N).
      eexists. reflexivity.
  - apply truediv_nonzero. exact Hprice.
Qed.

(** The buy level in a long market, with an executor that has closed. *)
Lemma controller_total_witness :
  no_method_raises Sample.self Sample.closed_executor Sample.buy_level
    Sample.long_world.
Proof.
  apply (controller_total Sample.self Sample.closed_executor Sample.buy_level
           Sample.long_world).
  - vm_compute. discriminate.
  - split.
    + discriminate.
    + intros _. discriminate.
Defined.

(** C10, as stated, fails: at an order price of 1960 a level without take
    profit makes [get_position_config] raise in the product on line 103,
    and a level with a trailing delta and no activation price delta makes
    it raise in the [TrailingStop] on line 91. *)
Lemma get_position_config_raises_at_nonzero_price :
  (~ (BollinGrid.order_price_in Sample.self Sample.long_world
        Sample.no_take_profit_level == 0)%Q
   /\ BollinGrid.get_position_config Sample.self Sample.no_take_profit_level
        Sample.long_world = Raises TypeError
   /\ ~ no_method_raises Sample.self Sample.closed_executor
          Sample.no_take_profit_level Sample.long_world)
  /\ (~ (BollinGrid.order_price_in Sample.self Sample.long_world
           Sample.no_activation_level == 0)%Q
      /\ BollinGrid.get_position_config Sample.self Sample.no_activation_level
           Sample.long_world = Raises ValidationError
      /\ ~ no_method_raises Sample.self Sample.closed_executor
             Sample.no_activation_level Sample.long_world).
Proof.
  assert (R2 : BollinGrid.get_position_config Sample.self
                 Sample.no_take_profit_level Sample.long_world = Raises TypeError)
    by (vm_compute; reflexivity).
  assert (R3 : BollinGrid.get_position_config Sample.self
                 Sample.no_activation_level Sample.long_world
               = Raises ValidationError)
    by (vm_compute; reflexivity).
  split.
  - split; [vm_compute; discriminate|]. split; [exact R2|].
    intros (_ & _ & _ & r & E). rewrite R2 in E. discriminate.
  - split; [vm_compute; discriminate|]. split; [exact R3|].
    intros (_ & _ & _ & r & E). rewrite R3 in E. discriminate.
Qed.

(* ===================================================================== *)
(** ** The Backtesting page *)
(* ===================================================================== *)

Ltac find_in_order :=
  repeat first [ apply Page.in_order_done
               | apply Page.in_order_here
               | apply Page.in_order_later ].

(** The log of one run of the page: eighteen calls, nine objects. *)
Lemma run_log :
  Page.run
  = [ Page.mk_event
        (Page.st_set_page_config "Hummingbot Dashboard" "🚀" "wide" "collapsed") [];
      Page.mk_event (Page.st_title "⚙️ Backtesting") [];
      Page.mk_event
        (Page.get_dataframe "binance_perpetual" "ETH-USDT" "1h") [0%nat];
      Page.mk_event (Page.StatArb "ETH-USDT" 24 1.5) [1%nat];
      Page.mk_event (Page.Backtesting 1%nat) [2%nat];
      Page.mk_event
        (Page.run_backtesting 2%nat
           (Page.mk_run_kwargs 50 20 100 3.0 1.5 (60 * 60 * 24) None)) [3%nat];
      Page.mk_event (Page.BacktestingAnalysis 3%nat 0%nat) [4%nat];
      Page.mk_event (Page.create_base_figure 4%nat false true 1) [];
      Page.mk_event (Page.add_trade_pnl 4%nat 2) [];
      Page.mk_event (Page.st_columns [0.2%Q; 0.8%Q]) [5%nat; 6%nat];
      Page.mk_event (Page.enter 5%nat) [];
      Page.mk_event (Page.text_report 4%nat) [7%nat];
      Page.mk_event (Page.st_text 7%nat) [];
      Page.mk_event (Page.exit 5%nat) [];
      Page.mk_event (Page.enter 6%nat) [];
      Page.mk_event (Page.figure 4%nat) [8%nat];
      Page.mk_event (Page.st_plotly_chart 8%nat true) [];
      Page.mk_event (Page.exit 6%nat) [] ].
Proof. vm_compute. reflexivity. Qed.

(** C8. The page constructs a [StatArb] strategy, hands it to the
    [Backtesting] runner (and hands it nothing else), runs the backtest on
    that runner, builds the analysis from the positions the run returned and
    the fetched candles, and renders that analysis's text report with
    [st.text] and its figure with [st.plotly_chart]. *)
Theorem page_backtests_stat_arb :
  exists (df strategy backtesting positions analysis report fig : Page.obj)
         (kw : Page.run_kwargs),
    Page.in_order
      [ Page.mk_event
          (Page.get_dataframe "binance_perpetual" "ETH-USDT" "1h") [df];
        Page.mk_event (Page.StatArb "ETH-USDT" 24 1.5) [strategy];
        Page.mk_event (Page.Backtesting strategy) [backtesting];
        Page.mk_event (Page.run_backtesting backtesting kw) [positions];
        Page.mk_event (Page.BacktestingAnalysis positions df) [analysis];
        Page.mk_event (Page.text_report analysis) [report];
        Page.mk_event (Page.st_text report) [];
        Page.mk_event (Page.figure analysis) [fig];
        Page.mk_event (Page.st_plotly_chart fig true) [] ]
      Page.run
    /\ (forall s b : Page.obj,
          Page.produces Page.run (Page.Backtesting s) b -> s = strategy)
    /\ (forall (b p : Page.obj) (kw' : Page.run_kwargs),
          Page.produces Page.run (Page.run_backtesting b kw') p ->
          b = backtesting).
Proof.
  rewrite run_log.
  exists 0%nat, 1%nat, 2%nat, 3%nat, 4%nat, 7%nat, 8%nat.
  eexists. split; [|split].
  - find_in_order.
  - intros s b H. unfold Page.produces in H. cbn [In] in H.
    repeat (destruct H as [H | H]; [congruence|]). contradiction.
  - intros b p kw' H. unfold Page.produces in H. cbn [In] in H.
    repeat (destruct H as [H | H]; [congruence|]). contradiction.
Qed.

(** C9, as the code has it.  The page executes, in order: fetch data,
    construct two framework objects ([StatArb], [Backtesting]), call one
    method ([run_backtesting]); then it constructs a third framework object
    ([BacktestingAnalysis]), calls [create_base_figure], [add_trade_pnl] and
    [text_report] on it, renders the text, calls [figure] and renders the
    chart.  No other framework object is constructed and no other framework
    method is called; the first four steps and the last one are the glue
    steps. *)
Theorem page_steps_in_order :
  Page.steps Page.run
    = [ Page.Fetch; Page.Construct; Page.Construct; Page.Method;
        Page.Construct; Page.Method; Page.Method; Page.Method;
        Page.RenderText; Page.Method; Page.RenderChart ]
  /\ List.map Page.ev_call
       (List.filter (fun e => match Page.step_of (Page.ev_call e) with
                              | Some _ => true
                              | None => false
                              end) Page.run)
     = [ Page.get_dataframe "binance_perpetual" "ETH-USDT" "1h";
         Page.StatArb "ETH-USDT" 24 1.5;
         Page.Backtesting 1%nat;
         Page.run_backtesting 2%nat
           (Page.mk_run_kwargs 50 20 100 3.0 1.5 (60 * 60 * 24) None);
         Page.BacktestingAnalysis 3%nat 0%nat;
         Page.create_base_figure 4%nat false true 1;
         Page.add_trade_pnl 4%nat 2;
         Page.text_report 4%nat;
         Page.st_text 7%nat;
         Page.figure 4%nat;
         Page.st_plotly_chart 8%nat true ]
  /\ firstn 4 (Page.steps Page.run) = firstn 4 Page.glue_steps
  /\ last (Page.steps Page.run) Page.Fetch = last Page.glue_steps Page.Fetch.
Proof.
  rewrite run_log. repeat split.
Qed.

(** C9, as stated, fails: the steps of the page are not the five glue steps.
    Three framework objects are constructed, not two, and five framework
    methods are called, not one. *)
Lemma page_is_more_than_glue_steps :
  Page.steps Page.run <> Page.glue_steps
  /\ Page.count_step Page.Construct Page.run = 3%nat
  /\ Page.count_step Page.Method Page.run = 5%nat
  /\ List.length (List.filter (Page.step_eqb Page.Construct) Page.glue_steps)
     = 2%nat
  /\ List.length (List.filter (Page.step_eqb Page.Method) Page.glue_steps)
     = 1%nat.
Proof.
  rewrite run_log.
  split; [cbn; discriminate|].
  repeat split.
Qed.

(* ===================================================================== *)
(** ** Further lemmas on the controller *)
(* ===================================================================== *)

Lemma refresh_order_condition_true_iff self executor order_level w :
  BollinGrid.refresh_order_condition self executor order_level w = Returns true
  <-> (PositionConfig.timestamp (PositionExecutor.position_config executor)
       + OrderLevel.order_refresh_time order_level <= clock w)%Q.
Proof.
  unfold BollinGrid.refresh_order_condition, time_time. cbn.
  destruct (gt _ (clock w)) eqn:G.
  - apply gt_true_iff in G. split; [discriminate|].
    intros L. exfalso. exact (Qlt_not_le _ _ G L).
  - apply gt_false_iff in G. split; [intros _; exact G | reflexivity].
Qed.

Lemma cooldown_condition_unfold self executor order_level w :
  BollinGrid.cooldown_condition self executor order_level w
  = Returns (match PositionExecutor.close_timestamp executor with
             | Some t => truthy t && gt (t + OrderLevel.cooldown_time order_level) (clock w)
             | None => false
             end).
Proof.
  unfold BollinGrid.cooldown_condition, time_time, lift.
  destruct (PositionExecutor.close_timestamp executor) as [t |]; cbn;
    [|reflexivity].
  destruct (truthy t); cbn; [|reflexivity].
  destruct (gt _ _); reflexivity.
Qed.

(* ===================================================================== *)
(** ** Further properties of [get_position_config] *)
(* ===================================================================== *)

(** X4. For a SELL level the take profit returned is the configured take
    profit scaled by the spread multiplier, so it is nonnegative when both
    are. *)
Theorem sell_take_profit_scaled
    (self : BollinGrid.t) (order_level : OrderLevel.t) (w : World)
    (pc : PositionConfig.t) :
  OrderLevel.side order_level = SELL ->
  BollinGrid.get_position_config self order_level w = Returns (Some pc) ->
  exists take_profit : Q,
    TripleBarrierConf.take_profit (OrderLevel.triple_barrier_conf order_level)
      = Some take_profit
    /\ PositionConfig.take_profit pc
       = (take_profit * BollinGrid.spread_multiplier_in w)%Q
    /\ ((0 <= BollinGrid.spread_multiplier_in w)%Q ->
        (0 <= take_profit)%Q ->
        (0 <= PositionConfig.take_profit pc)%Q).
Proof.
  intros Hs R.
  destruct (get_position_config_returned _ _ _ _ R)
    as (_ & _ & _ & _ & (tp & T & Hp) & _).
  exists tp. split; [exact T|].
  rewrite Hp. unfold BollinGrid.signed_multiplier. rewrite Hs. cbn.
  split; [reflexivity|].
  intros Hm Ht. apply Qmult_le_0_compat; assumption.
Qed.

Lemma sell_take_profit_scaled_witness :
  exists pc : PositionConfig.t,
    BollinGrid.get_position_config Sample.self Sample.sell_level
      Sample.short_world = Returns (Some pc)
    /\ PositionConfig.take_profit pc = (0.02 * 0.01)%Q.
Proof.
  eexists. split; [vm_compute; reflexivity|].
  destruct (sell_take_profit_scaled Sample.self Sample.sell_level
              Sample.short_world _ eq_refl eq_refl) as (tp & T & Hp & _).
  injection T as <-. exact Hp.
Defined.

(** X5. A trailing stop in the returned position carries the level's two
    configured deltas, and its trailing delta is not zero; a level whose
    trailing delta is not set, or is zero, gets a position without trailing
    stop. *)
Theorem trailing_stop_carries_configured_deltas
    (self : BollinGrid.t) (order_level : OrderLevel.t) (w : World)
    (pc : PositionConfig.t) :
  BollinGrid.get_position_config self order_level w = Returns (Some pc) ->
  let tbc := OrderLevel.triple_barrier_conf order_level in
  (forall ts : TrailingStop.t,
      PositionConfig.trailing_stop pc = Some ts ->
      TripleBarrierConf.trailing_stop_trailing_delta tbc
        = Some (TrailingStop.trailing_delta ts)
      /\ TripleBarrierConf.trailing_stop_activation_price_delta tbc
         = Some (TrailingStop.activation_price_delta ts)
      /\ ~ (TrailingStop.trailing_delta ts == 0)%Q)
  /\ (truthy_opt (TripleBarrierConf.trailing_stop_trailing_delta tbc) = false ->
      PositionConfig.trailing_stop pc = None).
Proof.
  intros R tbc.
  destruct (Z.eq_dec (BollinGrid.active_side_in w)
                     (BollinGrid.current_side order_level)) as [E | N];
    [| rewrite (get_position_config_mismatch self order_level w N) in R;
       discriminate].
  rewrite (get_position_config_match self order_level w E) in R.
  cbv zeta in R. fold tbc in R.
  destruct (truediv _ _) as [amount | e]; [|discriminate].
  destruct (TripleBarrierConf.trailing_stop_trailing_delta tbc) as [d |] eqn:D;
    cbn in R |- *.
  - destruct (truthy d) eqn:Td.
    + destruct (TripleBarrierConf.trailing_stop_activation_price_delta tbc)
        as [a |] eqn:A; cbn in R; [|discriminate].
      destruct (mul_opt _ _) as [tp | e]; [|discriminate].
      injection R as <-. cbn. split; [|discriminate].
      intros ts H. injection H as <-. cbn.
      split; [reflexivity|]. split; [reflexivity|].
      apply truthy_true_iff. exact Td.
    + destruct (mul_opt _ _) as [tp | e]; [|discriminate].
      injection R as <-. cbn. split; [discriminate | reflexivity].
  - destruct (mul_opt _ _) as [tp | e]; [|discriminate].
    injection R as <-. cbn. split; [discriminate | reflexivity].
Qed.

(** The sample buy level: trailing delta 0.005, activation price delta
    0.01. *)
Lemma trailing_stop_carries_configured_deltas_witness :
  exists (pc : PositionConfig.t) (ts : TrailingStop.t),
    BollinGrid.get_position_config Sample.self Sample.buy_level
      Sample.long_world = Returns (Some pc)
    /\ PositionConfig.trailing_stop pc = Some ts
    /\ ~ (TrailingStop.trailing_delta ts == 0)%Q.
Proof.
  eexists. eexists. split; [vm_compute; reflexivity|].
  split; [reflexivity|].
  refine (proj2 (proj2 (proj1 (trailing_stop_carries_configured_deltas
                                 Sample.self Sample.buy_level
                                 Sample.long_world _ _) _ _))).
  - vm_compute. reflexivity.
  - reflexivity.
Defined.

(** X6. A position built by [get_position_config] at clock reading [t] is
    due for refresh exactly from [t + order_refresh_time] on, whatever
    else the executor holds. *)
Theorem new_position_refreshes_after_refresh_time
    (self : BollinGrid.t) (order_level : OrderLevel.t) (w : World)
    (pc : PositionConfig.t)
    (close_timestamp : option Q) (later : World) :
  BollinGrid.get_position_config self order_level w = Returns (Some pc) ->
  BollinGrid.refresh_order_condition self
    {| PositionExecutor.position_config := pc;
       PositionExecutor.close_timestamp := close_timestamp |}
    order_level later = Returns true
  <-> (clock w + OrderLevel.order_refresh_time order_level <= clock later)%Q.
Proof.
  intros R.
  destruct (get_position_config_returned _ _ _ _ R) as (_ & _ & _ & _ & _ & T).
  rewrite refresh_order_condition_true_iff. cbn. rewrite T. reflexivity.
Qed.

Lemma new_position_refreshes_after_refresh_time_witness :
  exists pc : PositionConfig.t,
    BollinGrid.get_position_config Sample.self Sample.buy_level Sample.long_world
      = Returns (Some pc)
    /\ BollinGrid.refresh_order_condition Sample.self
         {| PositionExecutor.position_config := pc;
            PositionExecutor.close_timestamp := None |}
         Sample.buy_level Sample.later_world = Returns true.
Proof.
  eexists. split; [vm_compute; reflexivity|].
  apply (new_position_refreshes_after_refresh_time
           Sample.self Sample.buy_level Sample.long_world).
  - vm_compute. reflexivity.
  - vm_compute. discriminate.
Defined.

(** X7. Once an order is due for refresh it stays due: if
    [refresh_order_condition] returns [True] at one clock reading, it
    returns [True] at every later one. *)
Theorem refresh_stays_due
    (self : BollinGrid.t) (executor : PositionExecutor.t)
    (order_level : OrderLevel.t) (w later : World) :
  (clock w <= clock later)%Q ->
  BollinGrid.refresh_order_condition self executor order_level w = Returns true ->
  BollinGrid.refresh_order_condition self executor order_level later = Returns true.
Proof.
  intros L. rewrite !refresh_order_condition_true_iff. intros D.
  exact (Qle_trans _ _ _ D L).
Qed.

Lemma refresh_stays_due_witness :
  BollinGrid.refresh_order_condition Sample.self Sample.open_executor
    Sample.buy_level (mkWorld 1200 (fun _ _ => 2000) (0.5, 0.01, 1%Z))
  = Returns true.
Proof.
  apply (refresh_stays_due Sample.self Sample.open_executor Sample.buy_level
           Sample.later_world).
  - vm_compute. discriminate.
  - vm_compute. reflexivity.
Defined.

(** X8. A cooldown that is over stays over: if [cooldown_condition] returns
    [False] at one clock reading, it returns [False] at every later one. *)
Theorem cooldown_stays_over
    (self : BollinGrid.t) (executor : PositionExecutor.t)
    (order_level : OrderLevel.t) (w later : World) :
  (clock w <= clock later)%Q ->
  BollinGrid.cooldown_condition self executor order_level w = Returns false ->
  BollinGrid.cooldown_condition self executor order_level later = Returns false.
Proof.
  intros L. rewrite !cooldown_condition_unfold.
  destruct (PositionExecutor.close_timestamp executor) as [t |]; [|reflexivity].
  destruct (truthy t); cbn; [|reflexivity].
  intros F. injection F as F. apply gt_false_iff in F.
  f_equal. apply gt_false_iff. exact (Qle_trans _ _ _ F L).
Qed.

Lemma cooldown_stays_over_witness :
  BollinGrid.cooldown_condition Sample.self Sample.closed_executor
    Sample.buy_level (mkWorld 1200 (fun _ _ => 2000) (0.5, 0.01, 1%Z))
  = Returns false.
Proof.
  apply (cooldown_stays_over Sample.self Sample.closed_executor Sample.buy_level
           Sample.later_world).
  - vm_compute. discriminate.
  - vm_compute. reflexivity.
Defined.

(** X9. [get_position_config] uses the price multiplier (BBP) it reads for
    nothing, and of the configuration only the exchange, the trading pair
    and the leverage: two controllers that agree on these, in two worlds
    that agree on the clock, the close price, the spread multiplier and the
    active side, give the same result. *)
Theorem position_ignores_price_multiplier
    (self1 self2 : BollinGrid.t) (order_level : OrderLevel.t) (w1 w2 : World) :
  BollinGridConfig.exchange (BollinGrid.config self1)
    = BollinGridConfig.exchange (BollinGrid.config self2) ->
  BollinGridConfig.trading_pair (BollinGrid.config self1)
    = BollinGridConfig.trading_pair (BollinGrid.config self2) ->
  BollinGridConfig.leverage (BollinGrid.config self1)
    = BollinGridConfig.leverage (BollinGrid.config self2) ->
  clock w1 = clock w2 ->
  BollinGrid.close_price_in self1 w1 = BollinGrid.close_price_in self2 w2 ->
  BollinGrid.spread_multiplier_in w1 = BollinGrid.spread_multiplier_in w2 ->
  BollinGrid.active_side_in w1 = BollinGrid.active_side_in w2 ->
  BollinGrid.get_position_config self1 order_level w1
  = BollinGrid.get_position_config self2 order_level w2.
Proof.
  intros He Hp Hl Hc Hclose Hm Ha.
  destruct (Z.eq_dec (BollinGrid.active_side_in w1)
                     (BollinGrid.current_side order_level)) as [E | N].
  - rewrite (get_position_config_match self1 order_level w1 E).
    rewrite Ha in E.
    rewrite (get_position_config_match self2 order_level w2 E).
    unfold BollinGrid.order_price_in.
    rewrite He, Hp, Hl, Hc, Hclose, Hm. reflexivity.
  - rewrite (get_position_config_mismatch self1 order_level w1 N).
    rewrite Ha in N.
    rewrite (get_position_config_mismatch self2 order_level w2 N).
    reflexivity.
Qed.

(** The sample controller and the one with another long threshold, at BBP
    readings 0.5 and 0.1. *)
Lemma position_ignores_price_multiplier_witness :
  BollinGrid.get_position_config Sample.self Sample.buy_level Sample.long_world
  = BollinGrid.get_position_config SampleFrame.narrow_self Sample.buy_level
      SampleFrame.other_bbp_world.
Proof.
  apply (position_ignores_price_multiplier
           Sample.self SampleFrame.narrow_self Sample.buy_level
           Sample.long_world SampleFrame.other_bbp_world);
    reflexivity.
Defined.

Lemma Qdiv_pos_neg (a p : Q) : (0 < a)%Q -> (p < 0)%Q -> (a / p < 0)%Q.
Proof.
  intros Ha Hp.
  assert (N : ~ (p == 0)%Q) by (intros Z0; rewrite Z0 in Hp; discriminate).
  pose proof (Qmult_div_r a p N) as E.
  set (x := (a / p)%Q) in *.
  destruct (Qlt_le_dec x 0) as [L | L]; [exact L|].
  exfalso.
  assert (P : (0 <= (- p) * x)%Q) by (apply Qmult_le_0_compat; lra).
  assert (Q0 : ((- p) * x == - (p * x))%Q) by ring.
  rewrite Q0, E in P. lra.
Qed.

Lemma wide_buy_price_negative self order_level w :
  OrderLevel.side order_level = BUY ->
  (0 < BollinGrid.close_price_in self w)%Q ->
  (1 < OrderLevel.spread_factor order_level * BollinGrid.spread_multiplier_in w)%Q ->
  (BollinGrid.order_price_in self w order_level < 0)%Q.
Proof.
  intros Hb Hc Hs.
  unfold BollinGrid.order_price_in, BollinGrid.order_price_of,
    BollinGrid.signed_multiplier.
  rewrite Hb. cbn.
  set (c := BollinGrid.close_price_in self w) in *.
  set (f := OrderLevel.spread_factor order_level) in *.
  set (m := BollinGrid.spread_multiplier_in w) in *.
  assert (P : (0 < c * (f * m - 1))%Q) by (apply Qmult_lt_0_compat; lra).
  assert (Q0 : (c * (1 + f * - m) == - (c * (f * m - 1)))%Q) by ring.
  rewrite Q0. lra.
Qed.

(** X10. The price is not kept positive.  For a BUY level with a positive
    close price and [spread_factor * spread_multiplier] above one, the
    position returned has a negative entry price and, for a positive order
    amount, a negative amount. *)
Theorem wide_buy_spread_gives_negative_price
    (self : BollinGrid.t) (order_level : OrderLevel.t) (w : World)
    (pc : PositionConfig.t) :
  OrderLevel.side order_level = BUY ->
  (0 < BollinGrid.close_price_in self w)%Q ->
  (1 < OrderLevel.spread_factor order_level * BollinGrid.spread_multiplier_in w)%Q ->
  (0 < OrderLevel.order_amount_usd order_level)%Q ->
  BollinGrid.get_position_config self order_level w = Returns (Some pc) ->
  (PositionConfig.entry_price pc < 0)%Q /\ (PositionConfig.amount pc < 0)%Q.
Proof.
  intros Hb Hc Hs Hu R.
  pose proof (wide_buy_price_negative self order_level w Hb Hc Hs) as Hp.
  destruct (get_position_config_returned _ _ _ _ R) as (_ & P & -> & -> & _).
  split; [exact Hp|].
  apply Qdiv_pos_neg; assumption.
Qed.

(** A buy level with spread factor 250 at a NATR of one percent: entered at
    [2000 * (1 - 2.5)]. *)
Lemma wide_buy_spread_gives_negative_price_witness :
  exists pc : PositionConfig.t,
    BollinGrid.get_position_config Sample.self SampleFrame.far_buy_level
      Sample.long_world = Returns (Some pc)
    /\ (PositionConfig.entry_price pc < 0)%Q.
Proof.
  eexists. split; [vm_compute; reflexivity|].
  apply (wide_buy_spread_gives_negative_price
           Sample.self SampleFrame.far_buy_level Sample.long_world).
  - reflexivity.
  - vm_compute. reflexivity.
  - vm_compute. reflexivity.
  - vm_compute. reflexivity.
  - vm_compute. reflexivity.
Defined.

(* ===================================================================== *)
(** ** [get_processed_data] *)
(* ===================================================================== *)

(** The two masked assignments, read row by row. *)
Lemma active_side_rowwise (self : BollinGrid.t) (candles_df : list Candles.row) :
  Candles.active_side (Candles.get_processed_data self candles_df)
  = map (fun r =>
           Candles.side_of (BollinGrid.config self)
             (Candles.BBP r (BollinGridConfig.bb_length (BollinGrid.config self))))
        candles_df.
Proof.
  unfold Candles.get_processed_data. cbn.
  induction candles_df as [| r df IH]; [reflexivity|].
  cbn. f_equal; [|exact IH].
  unfold Candles.side_of.
  destruct (Candles.BBP r _) as [b |]; reflexivity.
Qed.

Lemma side_of_overlap (cfg : BollinGridConfig.t) (b : Q) :
  (BollinGridConfig.bb_short_threshold cfg
   < BollinGridConfig.bb_long_threshold cfg)%Q ->
  Candles.side_of cfg (Some b)
  = if Qlt_le_dec (BollinGridConfig.bb_short_threshold cfg) b
    then (-1)%Z else 1%Z.
Proof.
  intros O. unfold Candles.side_of.
  destruct (Qlt_le_dec _ b) as [L | L].
  - apply gt_true_iff in L. now rewrite L.
  - pose proof L as L'. apply gt_false_iff in L'. rewrite L'.
    assert (G : gt (BollinGridConfig.bb_long_threshold cfg) b = true)
      by (apply gt_true_iff; exact (Qle_lt_trans _ _ _ L O)).
    now rewrite G.
Qed.

(** X12. The active side of a row is [-1], [0] or [1].  It is [-1] exactly
    when the row's BBP is above the short threshold; [1] exactly when it is
    below the long threshold and not above the short one; and [0] for a
    row whose BBP is NaN. *)
Theorem active_side_of_row
    (self : BollinGrid.t) (candles_df : list Candles.row)
    (i : nat) (r : Candles.row) :
  nth_error candles_df i = Some r ->
  let cfg := BollinGrid.config self in
  exists a : Z,
    nth_error (Candles.active_side (Candles.get_processed_data self candles_df)) i
      = Some a
    /\ (a = (-1)%Z \/ a = 0%Z \/ a = 1%Z)
    /\ (a = (-1)%Z
        <-> exists b, Candles.BBP r (BollinGridConfig.bb_length cfg) = Some b
                      /\ (BollinGridConfig.bb_short_threshold cfg < b)%Q)
    /\ (a = 1%Z
        <-> exists b, Candles.BBP r (BollinGridConfig.bb_length cfg) = Some b
                      /\ (b <= BollinGridConfig.bb_short_threshold cfg)%Q
                      /\ (b < BollinGridConfig.bb_long_threshold cfg)%Q)
    /\ (Candles.BBP r (BollinGridConfig.bb_length cfg) = None -> a = 0%Z).
Proof.
  intros Hr cfg. rewrite active_side_rowwise.
  exists (Candles.side_of cfg (Candles.BBP r (BollinGridConfig.bb_length cfg))).
  split.
  { exact (map_nth_error
             (fun r0 => Candles.side_of cfg
                          (Candles.BBP r0 (BollinGridConfig.bb_length cfg)))
             i candles_df Hr). }
  unfold Candles.side_of.
  destruct (Candles.BBP r (BollinGridConfig.bb_length cfg)) as [b |].
  - destruct (gt b (BollinGridConfig.bb_short_threshold cfg)) eqn:S.
    + apply gt_true_iff in S.
      split; [now left|]. split; [|split].
      * split; [intros _; now exists b | reflexivity].
      * split; [discriminate|].
        intros (b' & E & L & _). injection E as <-.
        exfalso. exact (Qlt_not_le _ _ S L).
      * discriminate.
    + apply gt_false_iff in S.
      destruct (gt (BollinGridConfig.bb_long_threshold cfg) b) eqn:L.
      * apply gt_true_iff in L.
        split; [now right; right|]. split; [|split].
        -- split; [discriminate|].
           intros (b' & E & G). injection E as <-.
           exfalso. exact (Qlt_not_le _ _ G S).
        -- split; [intros _; now exists b | reflexivity].
        -- discriminate.
      * apply gt_false_iff in L.
        split; [now right; left|]. split; [|split].
        -- split; [discriminate|].
           intros (b' & E & G). injection E as <-.
           exfalso. exact (Qlt_not_le _ _ G S).
        -- split; [discriminate|].
           intros (b' & E & _ & G). injection E as <-.
           exfalso. exact (Qlt_not_le _ _ G L).
        -- discriminate.
  - split; [now right; left|]. split; [|split].
    + split; [discriminate|]. intros (b' & E & _). discriminate.
    + split; [discriminate|]. intros (b' & E & _). discriminate.
    + reflexivity.
Qed.

(** The third sample candle has BBP 0.5, between the default thresholds
    0.3 and 0.7: both conditions hold and the row is short. *)
Lemma active_side_of_row_witness :
  exists a : Z,
    nth_error (Candles.active_side
                 (Candles.get_processed_data Sample.self SampleFrame.candles_df))
              2 = Some a
    /\ (a = (-1)%Z \/ a = 0%Z \/ a = 1%Z).
Proof.
  destruct (active_side_of_row Sample.self SampleFrame.candles_df 2
              SampleFrame.mid_band eq_refl)
    as (a & Ha & Hr & _).
  exists a. split; assumption.
Defined.

(** X13. When the short threshold is below the long threshold, as with the
    defaults 0.3 and 0.7, no row with a BBP value is neutral: the row is
    short when its BBP is above the short threshold and long otherwise. *)
Theorem overlapping_thresholds_leave_no_neutral_row
    (self : BollinGrid.t) (candles_df : list Candles.row)
    (i : nat) (r : Candles.row) (b : Q) :
  (BollinGridConfig.bb_short_threshold (BollinGrid.config self)
   < BollinGridConfig.bb_long_threshold (BollinGrid.config self))%Q ->
  nth_error candles_df i = Some r ->
  Candles.BBP r (BollinGridConfig.bb_length (BollinGrid.config self)) = Some b ->
  nth_error (Candles.active_side (Candles.get_processed_data self candles_df)) i
  = Some (if Qlt_le_dec
               (BollinGridConfig.bb_short_threshold (BollinGrid.config self)) b
          then (-1)%Z else 1%Z).
Proof.
  intros O Hr Hb. rewrite active_side_rowwise.
  rewrite (map_nth_error
             (fun r0 =>
                Candles.side_of (BollinGrid.config self)
                  (Candles.BBP r0
                     (BollinGridConfig.bb_length (BollinGrid.config self))))
             i candles_df Hr), Hb.
  f_equal. apply side_of_overlap. exact O.
Qed.

Lemma overlapping_thresholds_leave_no_neutral_row_witness :
  nth_error (Candles.active_side
               (Candles.get_processed_data Sample.self SampleFrame.candles_df)) 1
  = Some 1%Z.
Proof.
  apply (overlapping_thresholds_leave_no_neutral_row
           Sample.self SampleFrame.candles_df 1 SampleFrame.low_band 0.1).
  - vm_compute. reflexivity.
  - reflexivity.
  - reflexivity.
Defined.

(** X14. When the short threshold is below the long threshold, the long
    threshold has no effect: two controllers that read the same BBP column
    (equal [bb_length]) with the same short threshold, each below its own
    long threshold, compute the same active sides. *)
Theorem long_threshold_has_no_effect
    (self1 self2 : BollinGrid.t) (candles_df : list Candles.row) :
  BollinGridConfig.bb_length (BollinGrid.config self1)
    = BollinGridConfig.bb_length (BollinGrid.config self2) ->
  BollinGridConfig.bb_short_threshold (BollinGrid.config self1)
    = BollinGridConfig.bb_short_threshold (BollinGrid.config self2) ->
  (BollinGridConfig.bb_short_threshold (BollinGrid.config self1)
   < BollinGridConfig.bb_long_threshold (BollinGrid.config self1))%Q ->
  (BollinGridConfig.bb_short_threshold (BollinGrid.config self2)
   < BollinGridConfig.bb_long_threshold (BollinGrid.config self2))%Q ->
  Candles.active_side (Candles.get_processed_data self1 candles_df)
  = Candles.active_side (Candles.get_processed_data self2 candles_df).
Proof.
  intros L S O1 O2. rewrite !active_side_rowwise.
  apply map_ext. intros r. rewrite L.
  destruct (Candles.BBP r _) as [b |]; [|reflexivity].
  rewrite (side_of_overlap _ b O1), (side_of_overlap _ b O2), S.
  reflexivity.
Qed.

(** Long thresholds 0.7 and 0.4 over the short threshold 0.3, both on the
    BBP column of length 12. *)
Lemma long_threshold_has_no_effect_witness :
  Candles.active_side
    (Candles.get_processed_data Sample.self SampleFrame.candles_df)
  = Candles.active_side
      (Candles.get_processed_data SampleFrame.narrow_self SampleFrame.candles_df).
Proof.
  apply (long_threshold_has_no_effect
           Sample.self SampleFrame.narrow_self SampleFrame.candles_df).
  - reflexivity.
  - reflexivity.
  - vm_compute. reflexivity.
  - vm_compute. reflexivity.
Defined.

(* ===================================================================== *)
(** ** The layout of the page *)
(* ===================================================================== *)

(** X15. The page asks for two columns of widths 0.2 and 0.8.  Inside the
    first it takes the text report and renders it with [st.text]; inside
    the second it takes the figure and renders it with [st.plotly_chart].
    Every other call is made outside any container. *)
Theorem report_left_chart_right :
  exists (c1 c2 analysis report fig : Page.obj),
    In (Page.mk_event (Page.st_columns [0.2%Q; 0.8%Q]) [c1; c2]) Page.run
    /\ c1 <> c2
    /\ filter Layout.contained (Layout.placed [] Page.run)
       = [ (Page.text_report analysis, Some c1);
           (Page.st_text report, Some c1);
           (Page.figure analysis, Some c2);
           (Page.st_plotly_chart fig true, Some c2) ]
    /\ List.length (filter (fun p => negb (Layout.contained p))
                           (Layout.placed [] Page.run)) = 10%nat.
Proof.
  rewrite run_log.
  exists 5%nat, 6%nat, 4%nat, 7%nat, 8%nat.
  split; [cbn; tauto|]. split; [discriminate|].
  split; reflexivity.
Qed.
